(** * dspace-statistics-api: the Solr-to-PostgreSQL indexer

    A shallow embedding of [dspace_statistics_api/indexer.py] and the
    properties of its aggregation-and-merge pipeline.

    The script talks to two outside parties: a Solr server, reached with
    [requests.get], and a PostgreSQL table, reached through psycopg2.  The
    Solr server is an oracle from requests to replies; the table is a finite
    map from item ids to rows.  Python exceptions are values of [exn], and a
    computation is a function from the state of the run to a result and a new
    state. *)

From Stdlib Require Import ZArith Lia.
From Equations Require Import Equations.
From stdpp Require Import base strings list gmap pretty.

Local Open Scope Z_scope.
Set Warnings "-register-all".

(** ** Python values, as [json.loads] builds them *)

(** Solr's JSON holds integers only where the script reads numbers, so there
    is no float constructor.  A dict is its list of bindings in insertion
    order; [json.loads] keeps one binding per key, and nothing below relies
    on it.  A string is its UTF-8 bytes. *)
Inductive pyval : Type :=
| PNone
| PBool (b : bool)
| PInt (z : Z)
| PStr (s : string)
| PList (l : list pyval)
| PDict (d : list (string * pyval)).

Inductive exn : Type :=
| TypeError
| KeyError (key : string)
| AttributeError
| ValueError
| ConnectionError
| OverflowError
| ZeroDivisionError
| DatabaseError
| SystemExit (code : Z).

Inductive pyres (A : Type) : Type :=
| Ok (a : A)
| Raise (e : exn).
Arguments Ok {A} a.
Arguments Raise {A} e.

#[global] Instance pyres_ret : MRet pyres := fun A a => Ok a.
#[global] Instance pyres_bind : MBind pyres := fun A B f m =>
  match m with
  | Ok a => f a
  | Raise e => Raise e
  end.

(** [d[key]] on a dict. *)
Fixpoint dict_get (d : list (string * pyval)) (key : string) : option pyval :=
  match d with
  | [] => None
  | (k, v) :: d' => if String.eqb k key then Some v else dict_get d' key
  end.

(** [x[key]] with a string key: a dict raises KeyError on a missing key, any
    other value raises TypeError (not subscriptable, or indices must be
    integers). *)
Definition subscript (x : pyval) (key : string) : pyres pyval :=
  match x with
  | PDict d =>
      match dict_get d key with
      | Some v => Ok v
      | None => Raise (KeyError key)
      end
  | _ => Raise TypeError
  end.

(** [x.items()]: only a dict has the attribute. *)
Definition items (x : pyval) : pyres (list (string * pyval)) :=
  match x with
  | PDict d => Ok d
  | _ => Raise AttributeError
  end.

(** [for core in x]: a dict yields its keys, a list its elements, a string
    its characters; nothing else is iterable. *)
Fixpoint chars (s : string) : list pyval :=
  match s with
  | EmptyString => []
  | String c s' => PStr (String c EmptyString) :: chars s'
  end.

Definition iterate (x : pyval) : pyres (list pyval) :=
  match x with
  | PDict d => Ok (map (fun kv => PStr (fst kv)) d)
  | PList l => Ok l
  | PStr s => Ok (chars s)
  | _ => Raise TypeError
  end.

(** ** [int(a / b)] on Python integers *)

Module Float.

(** A finite binary64 value, [mant * 2 ^ expo]. *)
Record binary64 : Type := B64 { mant : Z; expo : Z }.

(** The integer nearest to [num / den], ties to even, for [den > 0]. *)
Definition round_half_even (num den : Z) : Z :=
  let q := num / den in
  let r := num mod den in
  if 2 * r <? den then q
  else if den <? 2 * r then q + 1
  else if Z.even q then q else q + 1.

(** The exponent of the last place of the quotient [n / d], [n] and [d]
    positive: the one that leaves 53 significant bits, and no less than the
    exponent of the subnormal numbers. *)
Definition ulp_exponent (n d : Z) : Z :=
  let l := Z.log2 n - Z.log2 d in
  let above := if 0 <=? l then d * 2 ^ l <=? n else d <=? n * 2 ^ (- l) in
  Z.max (if above then l - 52 else l - 53) (-1074).

Definition true_divide_pos (n d : Z) : pyres binary64 :=
  let e := ulp_exponent n d in
  if 0 <=? e then
    let m := round_half_even n (d * 2 ^ e) in
    if 2 ^ 1024 <=? m * 2 ^ e then Raise OverflowError else Ok (B64 m e)
  else Ok (B64 (round_half_even (n * 2 ^ (- e)) d) e).

(** [a / b] on two Python integers: CPython rounds the exact quotient to
    the nearest binary64 value, ties to even. *)
Definition true_divide (a b : Z) : pyres binary64 :=
  if b =? 0 then Raise ZeroDivisionError
  else if a =? 0 then Ok (B64 0 0)
  else
    x ← true_divide_pos (Z.abs a) (Z.abs b);
    Ok (B64 (Z.sgn a * Z.sgn b * mant x) (expo x)).

(** [int(x)]: the fraction is dropped. *)
Definition to_int (x : binary64) : Z :=
  if 0 <=? expo x then mant x * 2 ^ expo x
  else Z.quot (mant x) (2 ^ (- expo x)).

End Float.

(** [int(n / per_page)], where [n] came out of the JSON reply: [bool] is a
    subclass of [int] in Python, everything else that is not a number has no
    [/]. *)
Definition int_truediv (n : pyval) (per_page : Z) : pyres Z :=
  match n with
  | PInt z => x ← Float.true_divide z per_page; Ok (Float.to_int x)
  | PBool b => x ← Float.true_divide (if b then 1 else 0) per_page; Ok (Float.to_int x)
  | _ => Raise TypeError
  end.

(** ** The Solr server *)

(** What [requests.get] hands back: the status code, and the body as
    [res.json()] decodes it, or nothing when the body is not JSON. *)
Record response : Type := Response { status_code : Z; body : option pyval }.

Abbreviation params := (list (string * pyval)).

(** The server answers a URL and its query parameters, or does not answer
    and [requests.get] raises.  All requests of one run differ from each
    other, so one function describes every server a run can meet. *)
Abbreviation server := (string -> params -> option response).

Definition json (res : response) : pyres pyval :=
  match body res with
  | Some v => Ok v
  | None => Raise ValueError
  end.

(** ** The [items] table *)

Inductive column : Type := Views | Downloads.

(** [(id UUID PRIMARY KEY, views INT DEFAULT 0, downloads INT DEFAULT 0)] *)
Record row : Type := Row { views : Z; downloads : Z }.

Abbreviation table := (gmap string row).

Definition set_column (c : column) (v : Z) (r : row) : row :=
  match c with
  | Views => Row v (downloads r)
  | Downloads => Row (views r) v
  end.

(** One row of
    [INSERT INTO items(id, c) VALUES (i, v) ON CONFLICT(id) DO UPDATE SET c=excluded.c]:
    a new id gets the value in column [c] and the default in the other, a
    known id gets column [c] overwritten. *)
Definition upsert_row (c : column) (t : table) (iv : string * Z) : table :=
  match t !! iv.1 with
  | Some r => <[iv.1 := set_column c iv.2 r]> t
  | None => <[iv.1 := set_column c iv.2 (Row 0 0)]> t
  end.

(** An INT column takes a Python integer of 32 bits.  What PostgreSQL makes
    of other values is outside the script; the model refuses them.  The ids
    are stored as they come: the UUID syntax of the key column is not
    modelled. *)
Definition int4 (v : pyval) : pyres Z :=
  match v with
  | PInt z => if (- 2 ^ 31 <=? z) && (z <? 2 ^ 31) then Ok z else Raise DatabaseError
  | _ => Raise DatabaseError
  end.

Fixpoint adapt_rows (data : params) : pyres (list (string * Z)) :=
  match data with
  | [] => Ok []
  | (i, v) :: data' =>
      z ← int4 v;
      rows ← adapt_rows data';
      Ok ((i, z) :: rows)
  end.

Definition upsert_sql (c : column) : string :=
  match c with
  | Views => "INSERT INTO items(id, views) VALUES %s ON CONFLICT(id) DO UPDATE SET views=excluded.views"
  | Downloads => "INSERT INTO items(id, downloads) VALUES %s ON CONFLICT(id) DO UPDATE SET downloads=excluded.downloads"
  end.

Definition create_sql : string :=
  "CREATE TABLE IF NOT EXISTS items (id UUID PRIMARY KEY, views INT DEFAULT 0, downloads INT DEFAULT 0)".

(** ** The state of a run *)

Inductive event : Type :=
| Get (url : string) (query : params)
| Print (line : string)
| Execute (sql : string) (data : params)
| Commit.

(** [stored] is the committed table, [session] the table as the open
    connection sees it, [output] everything the run did so far, oldest
    first. *)
Record state : Type := State { stored : table; session : table; output : list event }.

Definition Py (A : Type) : Type := state -> pyres A * state.

#[global] Instance Py_ret : MRet Py := fun A a s => (Ok a, s).
#[global] Instance Py_bind : MBind Py := fun A B f m s =>
  match m s with
  | (Ok a, s') => f a s'
  | (Raise e, s') => (Raise e, s')
  end.

Definition lift {A : Type} (r : pyres A) : Py A := fun s => (r, s).

Definition emit (e : event) : Py unit :=
  fun s => (Ok tt, State (stored s) (session s) (output s ++ [e])).

(** [try: body except TypeError: handler] *)
Definition try_except_TypeError {A : Type} (body handler : Py A) : Py A :=
  fun s =>
    match body s with
    | (Raise TypeError, s') => handler s'
    | other => other
    end.

(** [print(line)] *)
Definition print (line : string) : Py unit := emit (Print line).

(** [exit(code)] *)
Definition exit {A : Type} (code : Z) : Py A := lift (Raise (SystemExit code)).

(** Modelled from the spec: [DatabaseManager] is in [database.py], which is
    not part of the sources at hand.  The connection is a scoped resource,
    acquired on entry and released on every exit path: the block starts from
    the committed table, and what it has not committed when it ends is
    gone. *)
Definition with_DatabaseManager {A : Type} (block : Py A) : Py A :=
  fun s =>
    match block (State (stored s) (stored s) (output s)) with
    | (r, s') => (r, State (stored s') (stored s') (output s'))
    end.

(** [cursor.execute] of the CREATE TABLE IF NOT EXISTS statement: the table
    is there afterwards, with the rows it had. *)
Definition execute_create : Py unit := emit (Execute create_sql []).

(** [psycopg2.extras.execute_values(cursor, sql, data, template="(%s, %s)")]
    with the upsert of column [c].  psycopg2 sends the rows in statements of
    at most 100, all in the open transaction, and none for an empty list. *)
Definition execute_values (c : column) (data : params) : Py unit :=
  fun s =>
    match adapt_rows data with
    | Ok rows =>
        (Ok tt, State (stored s) (foldl (upsert_row c) (session s) rows)
                      (output s ++ [Execute (upsert_sql c) data]))
    | Raise e => (Raise e, s)
    end.

(** [db.commit()] *)
Definition commit : Py unit :=
  fun s => (Ok tt, State (session s) (session s) (output s ++ [Commit])).

(** ** The pattern of the yearly cores *)

Definition is_digit (c : Ascii.ascii) : bool :=
  let n := Ascii.nat_of_ascii c in (48 <=? n)%nat && (n <=? 57)%nat.

Fixpoint strip_prefix (p s : string) : option string :=
  match p, s with
  | EmptyString, _ => Some s
  | String a p', String b s' => if Ascii.eqb a b then strip_prefix p' s' else None
  | String _ _, EmptyString => None
  end.

Definition newline : string := String (Ascii.ascii_of_nat 10) EmptyString.

(** [re.compile("^statistics-[0-9]{4}$").match(s)] on a string: the prefix,
    four ASCII digits and the end, where [$] also stands before a newline
    that ends the string. *)
Definition pattern_match_str (s : string) : bool :=
  match strip_prefix "statistics-" s with
  | Some (String a (String b (String c (String d rest)))) =>
      is_digit a && is_digit b && is_digit c && is_digit d
      && (String.eqb rest EmptyString || String.eqb rest newline)
  | _ => false
  end.

(** [pattern.match(core)]: anything but a string raises TypeError. *)
Definition pattern_match (core : pyval) : pyres bool :=
  match core with
  | PStr s => Ok (pattern_match_str s)
  | _ => Raise TypeError
  end.

(** ** The script *)

Section Indexer.

(** [from .config import SOLR_SERVER] *)
Variable SOLR_SERVER : string.
Variable solr : server.

(** [requests.get(url, params=query)] *)
Definition requests_get (url : string) (query : params) : Py response :=
  emit (Get url query);;
  match solr url query with
  | Some res => mret res
  | None => lift (Raise ConnectionError)
  end.

Definition status_query : params := [("action", PStr "STATUS"); ("wt", PStr "json")].

Definition status_url : string := SOLR_SERVER +:+ "/admin/cores".

(** The first loop of [get_statistics_shards]: the cores that match are
    appended to [statistics_core_years], the others skipped. *)
Fixpoint match_cores (cores : list pyval) (statistics_core_years : list string)
  : pyres (list string) :=
  match cores with
  | [] => Ok statistics_core_years
  | core :: cores' =>
      m ← pattern_match core;
      match core with
      | PStr name =>
          if negb m then match_cores cores' statistics_core_years
          else match_cores cores' (statistics_core_years ++ [name])
      | _ => Raise TypeError
      end
  end.

(** [if res.status_code == requests.codes.ok: ...], the value of
    [statistics_core_years] after it. *)
Definition statistics_cores (res : response) : pyres (list string) :=
  let statistics_core_years := [] in
  if status_code res =? 200 then
    data ← json res;
    status ← subscript data "status";
    cores ← iterate status;
    match_cores cores statistics_core_years
  else Ok statistics_core_years.

(** The second loop: [shards += f",{SOLR_SERVER}/{core}"]. *)
Fixpoint append_shards (shards : string) (statistics_core_years : list string) : string :=
  match statistics_core_years with
  | [] => shards
  | core :: cores' => append_shards (shards +:+ "," +:+ SOLR_SERVER +:+ "/" +:+ core) cores'
  end.

Definition get_statistics_shards : Py string :=
  let solr_query_params := status_query in
  let solr_url := status_url in
  res ← requests_get solr_url solr_query_params;
  statistics_core_years ← lift (statistics_cores res);
  let shards := EmptyString in
  let shards :=
    if (0 <? length statistics_core_years)%nat
    then append_shards (SOLR_SERVER +:+ "/statistics") statistics_core_years
    else shards in
  mret shards.

(** [index_views] and [index_downloads] are the same text up to these four
    constants. *)
Definition q (c : column) : string :=
  match c with Views => "type:2" | Downloads => "type:0" end.

Definition fq (c : column) : string :=
  match c with
  | Views => "isBot:false AND statistics_type:view"
  | Downloads => "isBot:false AND statistics_type:view AND bundleName:ORIGINAL"
  end.

Definition facet_field (c : column) : string :=
  match c with Views => "id" | Downloads => "owningItem" end.

Definition noun (c : column) : string :=
  match c with Views => "views" | Downloads => "downloads" end.

(** The query that asks for [countDistinct]. *)
Definition count_query (c : column) (shards : string) : params :=
  [ ("q", PStr (q c));
    ("fq", PStr (fq c));
    ("facet", PStr "true");
    ("facet.field", PStr (facet_field c));
    ("facet.mincount", PInt 1);
    ("facet.limit", PInt 1);
    ("facet.offset", PInt 0);
    ("stats", PStr "true");
    ("stats.field", PStr (facet_field c));
    ("stats.calcdistinct", PStr "true");
    ("shards", PStr shards);
    ("rows", PInt 0);
    ("wt", PStr "json") ].

(** The query of one page. *)
Definition page_query (c : column) (shards : string)
    (results_per_page results_current_page : Z) : params :=
  [ ("q", PStr (q c));
    ("fq", PStr (fq c));
    ("facet", PStr "true");
    ("facet.field", PStr (facet_field c));
    ("facet.mincount", PInt 1);
    ("facet.limit", PInt results_per_page);
    ("facet.offset", PInt (results_current_page * results_per_page));
    ("shards", PStr shards);
    ("rows", PInt 0);
    ("wt", PStr "json");
    ("json.nl", PStr "map") ].

Definition select_url : string := SOLR_SERVER +:+ "/statistics/select".

Definition page_banner (c : column) (results_current_page results_num_pages : Z) : string :=
  "Indexing item " +:+ noun c +:+ " (page " +:+ pretty (results_current_page + 1)
    +:+ " of " +:+ pretty (results_num_pages + 1) +:+ ")".

(** [res.json()["stats"]["stats_fields"][field]["countDistinct"]] *)
Definition countDistinct (c : column) (res : response) : pyres pyval :=
  reply ← json res;
  stats ← subscript reply "stats";
  stats_fields ← subscript stats "stats_fields";
  field ← subscript stats_fields (facet_field c);
  subscript field "countDistinct".

(** [res.json()["facet_counts"]["facet_fields"][field].items()], the pairs
    the [for] loop appends to [data]. *)
Definition facet_pairs (c : column) (res : response) : pyres params :=
  reply ← json res;
  facet_counts ← subscript reply "facet_counts";
  facets ← subscript facet_counts "facet_fields";
  field ← subscript facets (facet_field c);
  items field.

(** The body of the [while] loop; [data] is the list the loop fills and
    clears, and the body hands it back. *)
Definition index_page (c : column) (shards : string)
    (results_per_page results_num_pages results_current_page : Z)
    (data : params) : Py params :=
  print (page_banner c results_current_page results_num_pages);;
  let solr_query_params := page_query c shards results_per_page results_current_page in
  let solr_url := select_url in
  res ← requests_get solr_url solr_query_params;
  pairs ← lift (facet_pairs c res);
  let data := data ++ pairs in
  execute_values c data;;
  commit;;
  let data := [] in
  mret data.

(** [while results_current_page <= results_num_pages: ...] *)
Equations? index_pages (c : column) (shards : string)
    (results_per_page results_num_pages results_current_page : Z)
    (data : params) : Py unit
  by wf (Z.to_nat (results_num_pages + 1 - results_current_page)) lt :=
  index_pages c shards results_per_page results_num_pages results_current_page data with
      decide (results_current_page <= results_num_pages) := {
    | left _ =>
        data ← index_page c shards results_per_page results_num_pages
                 results_current_page data;
        index_pages c shards results_per_page results_num_pages
          (results_current_page + 1) data
    | right _ => mret tt }.
Proof. lia. Qed.

Definition index_dimension (c : column) (shards : string) : Py unit :=
  let solr_query_params := count_query c shards in
  let solr_url := select_url in
  res ← requests_get solr_url solr_query_params;
  results_totalNumFacets ←
    try_except_TypeError
      (lift (countDistinct c res))
      (print ("No item " +:+ noun c +:+ " to index, exiting.");;
       exit 0);
  let results_per_page := 100 in
  results_num_pages ← lift (int_truediv results_totalNumFacets results_per_page);
  let results_current_page := 0 in
  with_DatabaseManager
    (let data := [] in
     index_pages c shards results_per_page results_num_pages results_current_page data).

(** [shards] is a global of the module, read when the function runs; here
    it is an argument. *)
Definition index_views (shards : string) : Py unit := index_dimension Views shards.

Definition index_downloads (shards : string) : Py unit := index_dimension Downloads shards.

(** The statements of the module, in order. *)
Definition main : Py unit :=
  with_DatabaseManager (execute_create;; commit);;
  shards ← get_statistics_shards;
  index_views shards;;
  index_downloads shards.

End Indexer.

(** The exit status of the process: 0 when the module runs to its end, the
    code of [exit], and 1 after any other exception. *)
Definition exit_status (r : pyres unit) : Z :=
  match r with
  | Ok _ => 0
  | Raise (SystemExit code) => code
  | Raise _ => 1
  end.

(** A run of the script against a server, from a committed table. *)
Definition run (SOLR_SERVER : string) (solr : server) (t : table) : pyres unit * state :=
  main SOLR_SERVER solr (State t t []).

(** ** A run, read off the replies of the server *)

Section Replies.

Variable SOLR_SERVER : string.
Variable solr : server.

(** The pairs that page [k] of a dimension brings, or the exception that
    fetching and reading it raises. *)
Definition page_pairs (c : column) (shards : string) (k : Z) : pyres params :=
  match solr (select_url SOLR_SERVER) (page_query c shards 100 k) with
  | Some res => facet_pairs c res
  | None => Raise ConnectionError
  end.

(** The same, as the rows the table takes. *)
Definition page_rows (c : column) (shards : string) (k : Z) : pyres (list (string * Z)) :=
  pairs ← page_pairs c shards k;
  adapt_rows pairs.

(** The pages the loop goes into, from page [k] with [n] pages to go: it
    stops behind the first page that raises. *)
Fixpoint pages_tried (c : column) (shards : string) (k : Z) (n : nat) : list Z :=
  match n with
  | O => []
  | S n' =>
      k :: match page_rows c shards k with
           | Ok _ => pages_tried c shards (k + 1) n'
           | Raise _ => []
           end
  end.

Fixpoint pages_result (c : column) (shards : string) (k : Z) (n : nat) : pyres unit :=
  match n with
  | O => Ok tt
  | S n' =>
      match page_rows c shards k with
      | Ok _ => pages_result c shards (k + 1) n'
      | Raise e => Raise e
      end
  end.

Definition page_events (c : column) (shards : string) (num : Z) (k : Z) : list event :=
  Print (page_banner c k num)
  :: Get (select_url SOLR_SERVER) (page_query c shards 100 k)
  :: match page_pairs c shards k with
     | Ok pairs =>
         match adapt_rows pairs with
         | Ok _ => [Execute (upsert_sql c) pairs; Commit]
         | Raise _ => []
         end
     | Raise _ => []
     end.

Definition page_table (c : column) (shards : string) (t : table) (k : Z) : table :=
  match page_rows c shards k with
  | Ok rows => foldl (upsert_row c) t rows
  | Raise _ => t
  end.

(** [results_num_pages], when the run gets as far as the loop. *)
Definition num_pages (c : column) (shards : string) : option Z :=
  match solr (select_url SOLR_SERVER) (count_query c shards) with
  | Some res =>
      match countDistinct c res with
      | Ok total =>
          match int_truediv total 100 with
          | Ok num => Some num
          | Raise _ => None
          end
      | Raise _ => None
      end
  | None => None
  end.

Definition dimension_pages (c : column) (shards : string) : list Z :=
  match num_pages c shards with
  | Some num => pages_tried c shards 0 (Z.to_nat (num + 1))
  | None => []
  end.

Definition dimension_result (c : column) (shards : string) : pyres unit :=
  match solr (select_url SOLR_SERVER) (count_query c shards) with
  | Some res =>
      match countDistinct c res with
      | Ok total =>
          match int_truediv total 100 with
          | Ok num => pages_result c shards 0 (Z.to_nat (num + 1))
          | Raise e => Raise e
          end
      | Raise TypeError => Raise (SystemExit 0)
      | Raise e => Raise e
      end
  | None => Raise ConnectionError
  end.

Definition exit_message (c : column) : string :=
  "No item " +:+ noun c +:+ " to index, exiting.".

Definition dimension_events (c : column) (shards : string) : list event :=
  Get (select_url SOLR_SERVER) (count_query c shards)
  :: match solr (select_url SOLR_SERVER) (count_query c shards) with
     | Some res =>
         match countDistinct c res with
         | Ok total =>
             match int_truediv total 100 with
             | Ok num => flat_map (page_events c shards num) (dimension_pages c shards)
             | Raise _ => []
             end
         | Raise TypeError => [Print (exit_message c)]
         | Raise _ => []
         end
     | None => []
     end.

Definition dimension_table (c : column) (shards : string) (t : table) : table :=
  foldl (page_table c shards) t (dimension_pages c shards).

(** What [get_statistics_shards] returns. *)
Definition resolved_shards : pyres string :=
  match solr (status_url SOLR_SERVER) status_query with
  | Some res =>
      cores ← statistics_cores res;
      Ok (if (0 <? length cores)%nat
          then append_shards SOLR_SERVER (SOLR_SERVER +:+ "/statistics") cores
          else EmptyString)
  | None => Raise ConnectionError
  end.

Definition setup_events : list event :=
  [Execute create_sql []; Commit; Get (status_url SOLR_SERVER) status_query].

Definition run_result : pyres unit :=
  shards ← resolved_shards;
  dimension_result Views shards;;
  dimension_result Downloads shards.

Definition run_events : list event :=
  setup_events
  ++ match resolved_shards with
     | Ok shards =>
         dimension_events Views shards
         ++ match dimension_result Views shards with
            | Ok _ => dimension_events Downloads shards
            | Raise _ => []
            end
     | Raise _ => []
     end.

Definition run_table (t : table) : table :=
  match resolved_shards with
  | Ok shards =>
      let t' := dimension_table Views shards t in
      match dimension_result Views shards with
      | Ok _ => dimension_table Downloads shards t'
      | Raise _ => t'
      end
  | Raise _ => t
  end.

End Replies.

Arguments dimension_events : simpl never.
Arguments dimension_result : simpl never.
Arguments dimension_table : simpl never.

(** ** Rows and columns *)

(** The column that an upsert of [c] does not name. *)
Definition other_column (c : column) (r : row) : Z :=
  match c with
  | Views => downloads r
  | Downloads => views r
  end.

(** What a sequence of upserts does to one id: the last value written to
    each column, if any. *)
Definition effect : Type := option Z * option Z.

Definition apply_effect (e : effect) (o : option row) : option row :=
  match e with
  | (None, None) => o
  | (v, d) =>
      let r := default (Row 0 0) o in
      Some (Row (default (views r) v) (default (downloads r) d))
  end.

Definition then_effect (e1 e2 : effect) : effect :=
  (match e2.1 with Some v => Some v | None => e1.1 end,
   match e2.2 with Some d => Some d | None => e1.2 end).

Definition column_effect (c : column) (v : Z) : effect :=
  match c with
  | Views => (Some v, None)
  | Downloads => (None, Some v)
  end.

(** A change of the table that is, id by id, a write to columns. *)
Definition columnwise (f : table -> table) : Prop :=
  forall i : string, exists e : effect, forall t : table, f t !! i = apply_effect e (t !! i).

(** ** Servers to run the script against *)

(** A reply to the count query: [stats.stats_fields.<field>] is [v]. *)
Definition stats_reply (c : column) (v : pyval) : response :=
  Response 200 (Some (PDict [("stats", PDict [("stats_fields", PDict [(facet_field c, v)])])])).

(** A reply to a page query: [facet_counts.facet_fields.<field>] maps ids to
    counts. *)
Definition facet_reply (c : column) (pairs : params) : response :=
  Response 200
    (Some (PDict [("facet_counts", PDict [("facet_fields", PDict [(facet_field c, PDict pairs)])])])).

(** A reply to the status query that lists the cores [names]. *)
Definition cores_reply (code : Z) (names : list string) : response :=
  Response code (Some (PDict [("status", PDict (map (fun n => (n, PDict [])) names))])).

Definition counted (n : Z) : pyval := PDict [("countDistinct", PInt n)].

Definition demo_url : string := "http://localhost:8081/solr".

(** A server at [demo_url] that answers the status query with [status], the
    count query of dimension [c] with [counts c] and page [k] of it with the
    pairs [pages c k]. *)
Definition demo_server (status : option response) (counts : column -> pyval)
    (pages : column -> Z -> params) : server :=
  fun url query =>
    if String.eqb url (status_url demo_url) then status
    else
      let c :=
        match dict_get query "q" with
        | Some (PStr "type:2") => Views
        | _ => Downloads
        end in
      match dict_get query "stats", dict_get query "facet.offset" with
      | Some _, _ => Some (stats_reply c (counts c))
      | None, Some (PInt offset) => Some (facet_reply c (pages c (offset / 100)))
      | None, _ => None
      end.

(** The server of the merge example: no yearly cores, one page of views
    with A and B, one page of downloads with A. *)
Definition merge_server : server :=
  demo_server (Some (cores_reply 200 ["statistics"]))
    (fun c => match c with Views => counted 2 | Downloads => counted 1 end)
    (fun c _ =>
       match c with
       | Views => [("A", PInt 5); ("B", PInt 3)]
       | Downloads => [("A", PInt 2)]
       end).

(** ** The shard set, in the words of the specification *)

(** The base core plus one entry per core whose name matches the pattern, in
    the order of the status reply; nothing when no core matches. *)
Definition shard_targets (SOLR_SERVER : string) (names : list string) : list string :=
  match List.filter pattern_match_str names with
  | [] => []
  | years =>
      (SOLR_SERVER +:+ "/statistics") :: map (fun name => SOLR_SERVER +:+ "/" +:+ name) years
  end.

(** The [shards] parameter that stands for a shard set. *)
Definition shards_parameter (targets : list string) : string := String.concat "," targets.

(** ** What a trace shows *)

(** The requests among the events, oldest first. *)
Fixpoint requests (evs : list event) : list (string * params) :=
  match evs with
  | [] => []
  | Get url query :: evs' => (url, query) :: requests evs'
  | _ :: evs' => requests evs'
  end.

(** The batches handed to [execute_values], oldest first. *)
Fixpoint batches (evs : list event) : list (string * params) :=
  match evs with
  | [] => []
  | Execute sql data :: evs' => (sql, data) :: batches evs'
  | _ :: evs' => batches evs'
  end.

(** The events of a page that went through: its banner, its request, its
    batch and the commit of the batch. *)
Definition page_block (SOLR_SERVER : string) (c : column) (shards : string)
    (num k : Z) (data : params) : list event :=
  [ Print (page_banner c k num);
    Get (select_url SOLR_SERVER) (page_query c shards 100 k);
    Execute (upsert_sql c) data;
    Commit ].




(** The replies to a dimension are in order: the count is [n], and each of
    the pages that [n] asks for brings rows the table takes. *)
Definition replies_in_order (SOLR_SERVER : string) (solr : server) (c : column)
    (shards : string) (n : Z) : Prop :=
  (exists res, solr (select_url SOLR_SERVER) (count_query c shards) = Some res
               /\ countDistinct c res = Ok (PInt n))
  /\ 0 <= n < 100 * 2 ^ 47
  /\ forall k, 0 <= k <= n / 100 ->
       exists rows, page_rows SOLR_SERVER solr c shards k = Ok rows.

Definition is_SystemExit (e : exn) : bool :=
  match e with
  | SystemExit _ => true
  | _ => false
  end.

(** ** More servers *)

(** No usable count of views, one page of downloads. *)
Definition no_views_server : server :=
  demo_server (Some (cores_reply 200 ["statistics"]))
    (fun c => match c with Views => PNone | Downloads => counted 1 end)
    (fun _ _ => [("A", PInt 2)]).



(** Two yearly cores among others, 200 items with views and with downloads,
    one pair on every page. *)
Definition sharded_server : server :=
  demo_server
    (Some (cores_reply 200 ["statistics"; "statistics-2018"; "search"; "statistics-2019";
                            "statistics-19"; "oai"]))
    (fun _ => counted 200)
    (fun _ _ => [("A", PInt 5)]).


(** The statistic is there, but its [countDistinct] is null. *)
Definition null_count_server : server :=
  demo_server (Some (cores_reply 200 ["statistics"]))
    (fun _ => PDict [("countDistinct", PNone)]) (fun _ _ => [("A", PInt 2)]).


(** No answer to the status request. *)
Definition silent_server : server := demo_server None (fun _ => counted 1) (fun _ _ => []).

(** * Proofs *)

(** ** The definitions at work *)

Example int_truediv_250 : int_truediv (PInt 250) 100 = Ok 2.
Proof. vm_compute. reflexivity. Qed.

Example int_truediv_200 : int_truediv (PInt 200) 100 = Ok 2.
Proof. vm_compute. reflexivity. Qed.

Example int_truediv_True : int_truediv (PBool true) 100 = Ok 0.
Proof. vm_compute. reflexivity. Qed.

Example int_truediv_None : int_truediv PNone 100 = Raise TypeError.
Proof. reflexivity. Qed.

(** From 100 * 2^47 + 99 on the quotient can round up to the next integer
    before the cast drops the fraction. *)
Example int_truediv_rounds_up :
  int_truediv (PInt 14073748835532899) 100 = Ok 140737488355329.
Proof. vm_compute. reflexivity. Qed.

Example pattern_match_year : pattern_match_str "statistics-2018" = true.
Proof. reflexivity. Qed.

Example pattern_match_base : pattern_match_str "statistics" = false.
Proof. reflexivity. Qed.

Example pattern_match_five_digits : pattern_match_str "statistics-20188" = false.
Proof. reflexivity. Qed.

Example page_banner_first :
  page_banner Views 0 2 = "Indexing item views (page 1 of 3)".
Proof. vm_compute. reflexivity. Qed.

(** ** Running the pieces *)

Ltac run_step :=
  unfold mbind, mret, Py_bind, Py_ret, pyres_bind, pyres_ret, lift, emit, print,
    exit, requests_get, commit; simpl.

Lemma get_statistics_shards_run (SOLR_SERVER : string) (solr : server) (s : state) :
  get_statistics_shards SOLR_SERVER solr s
  = (resolved_shards SOLR_SERVER solr,
     State (stored s) (session s)
       (output s ++ [Get (status_url SOLR_SERVER) status_query])).
Proof.
  unfold get_statistics_shards, resolved_shards. run_step.
  destruct (solr (status_url SOLR_SERVER) status_query) as [res|]; simpl; [|done].
  destruct (statistics_cores res); done.
Qed.

Lemma index_page_run (SOLR_SERVER : string) (solr : server) (c : column)
    (shards : string) (num k : Z) (s : state) :
  index_page SOLR_SERVER solr c shards 100 num k [] s
  = match page_rows SOLR_SERVER solr c shards k with
    | Ok rows =>
        let t := foldl (upsert_row c) (session s) rows in
        (Ok [], State t t (output s ++ page_events SOLR_SERVER solr c shards num k))
    | Raise e =>
        (Raise e, State (stored s) (session s)
                    (output s ++ page_events SOLR_SERVER solr c shards num k))
    end.
Proof.
  unfold index_page, page_rows, page_events, page_pairs, execute_values. run_step.
  destruct (solr _ _) as [res|]; simpl; [|by rewrite <- app_assoc].
  destruct (facet_pairs c res) as [pairs|e]; simpl; [|by rewrite <- app_assoc].
  destruct (adapt_rows pairs) as [rows|e]; simpl; [|by rewrite <- app_assoc].
  by rewrite <- !app_assoc.
Qed.

Lemma index_pages_run (SOLR_SERVER : string) (solr : server) (c : column)
    (shards : string) (num : Z) (n : nat) :
  forall (k : Z) (s : state),
    n = Z.to_nat (num + 1 - k) ->
    session s = stored s ->
    index_pages SOLR_SERVER solr c shards 100 num k [] s
    = let ks := pages_tried SOLR_SERVER solr c shards k n in
      let t := foldl (page_table SOLR_SERVER solr c shards) (stored s) ks in
      (pages_result SOLR_SERVER solr c shards k n,
       State t t (output s ++ flat_map (page_events SOLR_SERVER solr c shards num) ks)).
Proof.
  induction n as [|n IH]; intros k s Hn Hs; simp index_pages.
  - destruct (decide (k <= num)) as [Hle|Hgt]; [lia|]. simpl.
    destruct s as [t t' evs]; simpl in *. subst t'. by rewrite app_nil_r.
  - destruct (decide (k <= num)) as [Hle|Hgt]; [|lia]. simpl.
    unfold mbind at 1, Py_bind. rewrite index_page_run.
    assert (Ht : page_table SOLR_SERVER solr c shards (stored s) k
                 = match page_rows SOLR_SERVER solr c shards k with
                   | Ok rows => foldl (upsert_row c) (session s) rows
                   | Raise _ => stored s
                   end) by (unfold page_table; by rewrite Hs).
    destruct (page_rows SOLR_SERVER solr c shards k) as [rows|e] eqn:Hrows; simpl.
    + rewrite IH; [|lia|done]. simpl. by rewrite <- app_assoc, Ht.
    + by rewrite app_nil_r, Ht, Hs.
Qed.

Lemma index_dimension_run (SOLR_SERVER : string) (solr : server) (c : column)
    (shards : string) (s : state) :
  let r := index_dimension SOLR_SERVER solr c shards s in
  r.1 = dimension_result SOLR_SERVER solr c shards
  /\ stored r.2 = dimension_table SOLR_SERVER solr c shards (stored s)
  /\ output r.2 = output s ++ dimension_events SOLR_SERVER solr c shards.
Proof.
  unfold index_dimension, dimension_result, dimension_table, dimension_events,
    dimension_pages, num_pages, try_except_TypeError, with_DatabaseManager, exit_message.
  run_step.
  destruct (solr _ _) as [res|]; simpl; [|done].
  destruct (countDistinct c res) as [total|e]; simpl.
  - destruct (int_truediv total 100) as [num|e]; simpl; [|done].
    rewrite (index_pages_run _ _ _ _ _ (Z.to_nat (num + 1))); simpl; [|f_equal; lia|done].
    split_and!; [done..|]. by rewrite <- app_assoc.
  - destruct e; simpl; try done. split_and!; [done..|]. by rewrite <- app_assoc.
Qed.

Lemma bind_run {A B : Type} (m : Py A) (f : A -> Py B) (s : state) :
  (m ≫= f) s
  = match m s with
    | (Ok a, s') => f a s'
    | (Raise e, s') => (Raise e, s')
    end.
Proof. reflexivity. Qed.

Lemma main_run (SOLR_SERVER : string) (solr : server) (t : table) :
  let r := run SOLR_SERVER solr t in
  r.1 = run_result SOLR_SERVER solr
  /\ stored r.2 = run_table SOLR_SERVER solr t
  /\ output r.2 = run_events SOLR_SERVER solr.
Proof.
  unfold run, main, run_result, run_table, run_events, setup_events,
    index_views, index_downloads.
  rewrite bind_run. unfold with_DatabaseManager at 1. rewrite bind_run.
  unfold execute_create, commit, emit. simpl.
  rewrite bind_run, get_statistics_shards_run. simpl.
  destruct (resolved_shards SOLR_SERVER solr) as [shards|e]; simpl; [|done].
  rewrite bind_run.
  match goal with |- context [index_dimension _ _ Views shards ?s] =>
    pose proof (index_dimension_run SOLR_SERVER solr Views shards s) as (Hr & Ht & Ho);
    destruct (index_dimension SOLR_SERVER solr Views shards s) as [r1 s1]
  end.
  simpl in *. subst r1.
  destruct (dimension_result SOLR_SERVER solr Views shards) as [[]|e]; simpl.
  - pose proof (index_dimension_run SOLR_SERVER solr Downloads shards s1) as (Hr' & Ht' & Ho').
    destruct (index_dimension SOLR_SERVER solr Downloads shards s1) as [r2 s2].
    simpl in *. by rewrite Hr', Ht', Ho', Ht, Ho.
  - by rewrite Ht, Ho, app_nil_r.
Qed.

(** ** The page count *)

(** With a last place finer than half the divisor, rounding cannot reach the
    next integer. *)
Lemma round_half_even_scaled (n d k : Z) :
  0 <= n -> 0 < d -> 0 <= k -> d < 2 ^ (k + 1) ->
  Float.round_half_even (n * 2 ^ k) d / 2 ^ k = n / d.
Proof.
  intros Hn Hd Hk Hlt.
  rewrite Z.pow_add_r in Hlt by lia. change (2 ^ 1) with 2 in Hlt.
  assert (HK : 0 < 2 ^ k) by (apply Z.pow_pos_nonneg; lia).
  set (K := 2 ^ k) in *.
  pose proof (Z.div_mod n d ltac:(lia)) as Hnd.
  pose proof (Z.mod_pos_bound n d Hd) as HR.
  set (Q := n / d) in *. set (R := n mod d) in *.
  pose proof (Z.div_mod (n * K) d ltac:(lia)) as Hq.
  pose proof (Z.mod_pos_bound (n * K) d Hd) as Hr.
  unfold Float.round_half_even.
  set (q := n * K / d) in *. set (r := (n * K) mod d) in *.
  assert (Hlo : Q * K <= q) by nia.
  assert (Hhi : q < (Q + 1) * K) by nia.
  assert (Hup : d <= 2 * r -> q + 1 < (Q + 1) * K).
  { intros Hhalf.
    assert (q + 1 <> (Q + 1) * K); [|lia].
    intros Heq. assert (q = Q * K + (K - 1)) as Hq' by lia.
    rewrite Hq' in Hq. nia. }
  symmetry. apply (Z.div_unique_pos _ _ _
    ((if 2 * r <? d then q else if d <? 2 * r then q + 1
      else if Z.even q then q else q + 1) - Q * K)); [|lia].
  repeat case_match; lia.
Qed.

Lemma ulp_exponent_small (n : Z) :
  0 < n < 100 * 2 ^ 47 -> Float.ulp_exponent n 100 <= -6.
Proof.
  intros [Hpos Hlt]. unfold Float.ulp_exponent.
  change (Z.log2 100) with 6.
  assert (Hlog : Z.log2 n < 54).
  { apply Z.log2_lt_pow2; [done|]. lia. }
  apply Z.max_lub; [|lia].
  destruct (0 <=? Z.log2 n - 6) eqn:Hl; [|case_match; lia].
  destruct (100 * 2 ^ (Z.log2 n - 6) <=? n) eqn:Habove; [|lia].
  apply Z.leb_le in Hl, Habove.
  assert (2 ^ (Z.log2 n - 6) < 2 ^ 47) as Hpow by lia.
  apply Z.pow_lt_mono_r_iff in Hpow; lia.
Qed.

(** Below [100 * 2 ^ 47] distinct values (some 1.4e16) the division by the
    page size of 100 and the cast give the floor of the quotient. *)
Lemma int_truediv_floor (n : Z) :
  0 <= n < 100 * 2 ^ 47 -> int_truediv (PInt n) 100 = Ok (n / 100).
Proof.
  intros [Hn Hlt]. unfold int_truediv, Float.true_divide.
  change (100 =? 0) with false. cbv iota.
  destruct (n =? 0) eqn:H0.
  { apply Z.eqb_eq in H0. by subst n. }
  apply Z.eqb_neq in H0.
  pose proof (ulp_exponent_small n ltac:(lia)) as He.
  unfold Float.true_divide_pos.
  rewrite (Z.abs_eq n), (Z.abs_eq 100) by lia.
  set (e := Float.ulp_exponent n 100) in *.
  destruct (0 <=? e) eqn:Hsign; [apply Z.leb_le in Hsign; lia|].
  simpl. unfold Float.to_int. simpl. rewrite Hsign.
  f_equal.
  assert (Hm : 0 <= Float.round_half_even (n * 2 ^ (- e)) 100).
  { unfold Float.round_half_even.
    assert (0 <= n * 2 ^ (- e)) by (apply Z.mul_nonneg_nonneg; [lia|apply Z.pow_nonneg; lia]).
    pose proof (Z.div_pos (n * 2 ^ (- e)) 100 ltac:(lia) ltac:(lia)).
    repeat case_match; lia. }
  replace (Z.sgn n * 1 * Float.round_half_even (n * 2 ^ (- e)) 100)
    with (Float.round_half_even (n * 2 ^ (- e)) 100) by lia.
  rewrite Z.quot_div_nonneg; [|done|apply Z.pow_pos_nonneg; lia].
  apply round_half_even_scaled; [lia..|].
  apply Z.lt_le_trans with (2 ^ 7); [done|].
  apply Z.pow_le_mono_r; lia.
Qed.

(** ** Upserts *)

Lemma upsert_row_lookup (c : column) (t : table) (iv : string * Z) (i : string) :
  upsert_row c t iv !! i
  = if decide (iv.1 = i) then apply_effect (column_effect c iv.2) (t !! i) else t !! i.
Proof.
  unfold upsert_row. destruct iv as [j v]; simpl.
  destruct (decide (j = i)) as [->|Hne].
  - destruct (t !! i) as [r|]; rewrite lookup_insert_eq; by destruct c.
  - destruct (t !! j); by rewrite lookup_insert_ne.
Qed.

Lemma apply_then_effect (e1 e2 : effect) (o : option row) :
  apply_effect e2 (apply_effect e1 o) = apply_effect (then_effect e1 e2) o.
Proof. destruct e1 as [[?|] [?|]], e2 as [[?|] [?|]], o as [[? ?]|]; reflexivity. Qed.

Lemma apply_effect_idem (e : effect) (o : option row) :
  apply_effect e (apply_effect e o) = apply_effect e o.
Proof. destruct e as [[?|] [?|]], o as [[? ?]|]; reflexivity. Qed.

Lemma columnwise_id : columnwise (fun t => t).
Proof. intros i. by exists (None, None). Qed.

Lemma columnwise_compose (f g : table -> table) :
  columnwise f -> columnwise g -> columnwise (fun t => g (f t)).
Proof.
  intros Hf Hg i. destruct (Hf i) as [e1 H1], (Hg i) as [e2 H2].
  exists (then_effect e1 e2). intros t. by rewrite H2, H1, apply_then_effect.
Qed.

Lemma columnwise_upsert_row (c : column) (iv : string * Z) :
  columnwise (fun t => upsert_row c t iv).
Proof.
  intros i. destruct (decide (iv.1 = i)) as [Heq|Hne].
  - exists (column_effect c iv.2). intros t. rewrite upsert_row_lookup. by case_decide.
  - exists (None, None). intros t. rewrite upsert_row_lookup. by case_decide.
Qed.

Lemma columnwise_foldl {A : Type} (f : table -> A -> table) (l : list A) :
  (forall a, columnwise (fun t => f t a)) -> columnwise (fun t => foldl f t l).
Proof.
  intros Hf. induction l as [|a l IH] using rev_ind; simpl.
  - apply columnwise_id.
  - intros i. destruct (columnwise_compose _ _ IH (Hf a) i) as [e He].
    exists e. intros t. rewrite foldl_app. apply He.
Qed.

Lemma columnwise_idem (f : table -> table) (t : table) :
  columnwise f -> f (f t) = f t.
Proof.
  intros Hf. apply map_eq. intros i. destruct (Hf i) as [e He].
  by rewrite !He, apply_effect_idem.
Qed.

(** An upsert of column [c] keeps the other column of every row it finds. *)
Lemma foldl_upsert_other (c : column) (rows : list (string * Z)) :
  forall (t : table) (i : string) (r : row),
    t !! i = Some r ->
    exists r', foldl (upsert_row c) t rows !! i = Some r'
               /\ other_column c r' = other_column c r.
Proof.
  induction rows as [|iv rows IH]; intros t i r Hr; simpl.
  - by exists r.
  - assert (exists r1, upsert_row c t iv !! i = Some r1
                       /\ other_column c r1 = other_column c r) as (r1 & H1 & Ho).
    { rewrite upsert_row_lookup, Hr. case_decide; [|by exists r].
      destruct c; simpl; eauto. }
    destruct (IH _ _ _ H1) as (r' & H' & Ho'). exists r'. split; [done|congruence].
Qed.

Lemma columnwise_page_table (SOLR_SERVER : string) (solr : server) (c : column)
    (shards : string) (k : Z) :
  columnwise (fun t => page_table SOLR_SERVER solr c shards t k).
Proof.
  unfold page_table. destruct (page_rows SOLR_SERVER solr c shards k) as [rows|e].
  - apply columnwise_foldl. intros iv. apply columnwise_upsert_row.
  - apply columnwise_id.
Qed.

Lemma columnwise_dimension_table (SOLR_SERVER : string) (solr : server) (c : column)
    (shards : string) :
  columnwise (dimension_table SOLR_SERVER solr c shards).
Proof.
  unfold dimension_table. apply columnwise_foldl. intros k. apply columnwise_page_table.
Qed.

Lemma columnwise_run_table (SOLR_SERVER : string) (solr : server) :
  columnwise (run_table SOLR_SERVER solr).
Proof.
  unfold run_table. destruct (resolved_shards SOLR_SERVER solr) as [shards|e].
  - destruct (dimension_result SOLR_SERVER solr Views shards).
    + apply (columnwise_compose (dimension_table SOLR_SERVER solr Views shards)
               (dimension_table SOLR_SERVER solr Downloads shards));
        apply columnwise_dimension_table.
    + apply columnwise_dimension_table.
  - apply columnwise_id.
Qed.

Lemma dimension_table_other (SOLR_SERVER : string) (solr : server) (c : column)
    (shards : string) (t : table) (i : string) (r : row) :
  t !! i = Some r ->
  exists r', dimension_table SOLR_SERVER solr c shards t !! i = Some r'
             /\ other_column c r' = other_column c r.
Proof.
  unfold dimension_table. revert t r.
  induction (dimension_pages SOLR_SERVER solr c shards) as [|k ks IH];
    intros t r Hr; simpl.
  - by exists r.
  - assert (exists r1, page_table SOLR_SERVER solr c shards t k !! i = Some r1
                       /\ other_column c r1 = other_column c r) as (r1 & H1 & Ho).
    { unfold page_table. destruct (page_rows SOLR_SERVER solr c shards k).
      - by apply foldl_upsert_other.
      - by exists r. }
    destruct (IH _ _ H1) as (r' & H' & Ho'). exists r'. split; [done|congruence].
Qed.

(** ** Properties of the table *)

(** C4: for every entity E that has a stored row, upserting a page of one
    dimension and committing it leaves the value that E has in the column
    of the other dimension as it was; the same holds for a whole run of the
    dimension, whatever the server sends. *)
Theorem c4_other_column_unchanged (c : column) (E : string) (r : row) (s : state) :
  stored s !! E = Some r ->
  (forall data : params,
     session s = stored s ->
     exists r', stored ((execute_values c data;; commit) s).2 !! E = Some r'
                /\ other_column c r' = other_column c r)
  /\ (forall (SOLR_SERVER : string) (solr : server) (shards : string),
        exists r', stored (index_dimension SOLR_SERVER solr c shards s).2 !! E = Some r'
                   /\ other_column c r' = other_column c r).
Proof.
  intros Hr. split.
  - intros data Hs. rewrite bind_run. unfold execute_values, commit.
    destruct (adapt_rows data) as [rows|e]; simpl.
    + apply foldl_upsert_other. by rewrite Hs.
    + by exists r.
  - intros SOLR_SERVER solr shards.
    destruct (index_dimension_run SOLR_SERVER solr c shards s) as (_ & -> & _).
    by apply dimension_table_other.
Qed.

Lemma c4_other_column_unchanged_witness :
  let s := State {[ "E" := Row 1 7 ]} {[ "E" := Row 1 7 ]} [] in
  stored s !! "E" = Some (Row 1 7)
  /\ exists r', stored ((execute_values Views [("E", PInt 9)];; commit) s).2 !! "E" = Some r'
                /\ other_column Views r' = 7.
Proof.
  intros s. split; [vm_compute; reflexivity|].
  apply (c4_other_column_unchanged Views "E" (Row 1 7) s); vm_compute; reflexivity.
Defined.


(** C7: a second run against a server that answers as in the first run
    ends as the first did and leaves every stored counter as the first run
    left it. *)
Theorem c7_second_run_changes_nothing (SOLR_SERVER : string) (solr : server) (t : table) :
  let first := run SOLR_SERVER solr t in
  let second := run SOLR_SERVER solr (stored first.2) in
  stored second.2 = stored first.2
  /\ second.1 = first.1
  /\ output second.2 = output first.2.
Proof.
  intros first second.
  destruct (main_run SOLR_SERVER solr t) as (Hr1 & Ht1 & Ho1).
  destruct (main_run SOLR_SERVER solr (stored first.2)) as (Hr2 & Ht2 & Ho2).
  fold first in Hr1, Ht1, Ho1. fold second in Hr2, Ht2, Ho2.
  rewrite Hr2, Ho2, Ht2, Hr1, Ho1, Ht1. split_and!; [|done..].
  apply columnwise_idem, columnwise_run_table.
Qed.

(** ** The shards *)

Lemma string_app_assoc (s1 s2 s3 : string) : (s1 +:+ s2) +:+ s3 = s1 +:+ s2 +:+ s3.
Proof.
  induction s1 as [|a s1 IH]; [reflexivity|].
  change (String a ((s1 +:+ s2) +:+ s3) = String a (s1 +:+ s2 +:+ s3)).
  by rewrite IH.
Qed.

Lemma match_cores_names (names : list string) :
  forall years : list string,
    match_cores (map PStr names) years = Ok (years ++ List.filter pattern_match_str names).
Proof.
  induction names as [|name names IH]; intros years; simpl.
  - by rewrite app_nil_r.
  - unfold mbind, pyres_bind. simpl.
    destruct (pattern_match_str name); simpl; rewrite IH; [|done].
    by rewrite <- app_assoc.
Qed.

Lemma concat_comma_cons (s x : string) (rest : list string) :
  String.concat "," ((s +:+ "," +:+ x) :: rest) = String.concat "," (s :: x :: rest).
Proof.
  destruct rest as [|y rest]; simpl; [done|].
  by rewrite (string_app_assoc s), (string_app_assoc ",").
Qed.

Lemma append_shards_concat (SOLR_SERVER : string) (years : list string) :
  forall shards : string,
    append_shards SOLR_SERVER shards years
    = String.concat "," (shards :: map (fun name => SOLR_SERVER +:+ "/" +:+ name) years).
Proof.
  induction years as [|year years IH]; intros shards; [done|].
  cbn [append_shards map]. rewrite IH.
  by rewrite <- (concat_comma_cons shards (SOLR_SERVER +:+ "/" +:+ year)).
Qed.

(** The resolver on a status reply that lists cores by name. *)
Lemma resolved_shards_names (SOLR_SERVER : string) (solr : server) (res : response)
    (data : pyval) (cores : params) :
  solr (status_url SOLR_SERVER) status_query = Some res ->
  status_code res = 200 ->
  body res = Some data ->
  subscript data "status" = Ok (PDict cores) ->
  resolved_shards SOLR_SERVER solr
  = Ok (shards_parameter (shard_targets SOLR_SERVER (map fst cores))).
Proof.
  intros Hres Hcode Hbody Hstatus.
  unfold resolved_shards, statistics_cores, json. rewrite Hres, Hcode, Hbody. simpl.
  unfold mbind, pyres_bind. rewrite Hstatus. simpl.
  rewrite <- (map_map fst PStr), match_cores_names. simpl.
  unfold shards_parameter, shard_targets.
  destruct (List.filter pattern_match_str (map fst cores)) as [|year years]; [done|].
  f_equal. cbn [length Nat.ltb Nat.leb]. apply append_shards_concat.
Qed.

(** ** A dimension whose replies are in order *)



Lemma requests_app (evs1 evs2 : list event) :
  requests (evs1 ++ evs2) = requests evs1 ++ requests evs2.
Proof.
  induction evs1 as [|e evs1 IH]; [done|]. destruct e; simpl; by rewrite IH.
Qed.

Lemma batches_app (evs1 evs2 : list event) :
  batches (evs1 ++ evs2) = batches evs1 ++ batches evs2.
Proof.
  induction evs1 as [|e evs1 IH]; [done|]. destruct e; simpl; by rewrite IH.
Qed.

Lemma requests_page_events (SOLR_SERVER : string) (solr : server) (c : column)
    (shards : string) (num : Z) (ks : list Z) :
  requests (flat_map (page_events SOLR_SERVER solr c shards num) ks)
  = map (fun k => (select_url SOLR_SERVER, page_query c shards 100 k)) ks.
Proof.
  induction ks as [|k ks IH]; [done|].
  cbn [flat_map map]. rewrite requests_app, IH. f_equal.
  unfold page_events. simpl.
  destruct (page_pairs SOLR_SERVER solr c shards k) as [pairs|]; [|done].
  by destruct (adapt_rows pairs).
Qed.

(** ** Properties of the pages *)



(** ** The order of the events *)

Lemma page_events_done (SOLR_SERVER : string) (solr : server) (c : column)
    (shards : string) (num k : Z) (rows : list (string * Z)) :
  page_rows SOLR_SERVER solr c shards k = Ok rows ->
  exists pairs,
    page_pairs SOLR_SERVER solr c shards k = Ok pairs
    /\ page_events SOLR_SERVER solr c shards num k
       = page_block SOLR_SERVER c shards num k pairs.
Proof.
  unfold page_rows, page_events, page_block. intros Hrows.
  destruct (page_pairs SOLR_SERVER solr c shards k) as [pairs|e]; [|done].
  exists pairs. split; [done|]. simpl in Hrows. by destruct (adapt_rows pairs).
Qed.

Lemma page_events_raised (SOLR_SERVER : string) (solr : server) (c : column)
    (shards : string) (num k : Z) (e : exn) :
  page_rows SOLR_SERVER solr c shards k = Raise e ->
  page_events SOLR_SERVER solr c shards num k
  = [ Print (page_banner c k num);
      Get (select_url SOLR_SERVER) (page_query c shards 100 k) ].
Proof.
  unfold page_rows, page_events. intros Hrows.
  destruct (page_pairs SOLR_SERVER solr c shards k) as [pairs|e']; [|done].
  simpl in Hrows. by destruct (adapt_rows pairs).
Qed.




(** ** The batches *)

Lemma index_page_clears (SOLR_SERVER : string) (solr : server) (c : column)
    (shards : string) (num k : Z) (data d : params) (s0 s1 : state) :
  index_page SOLR_SERVER solr c shards 100 num k data s0 = (Ok d, s1) -> d = [].
Proof.
  unfold index_page, execute_values. run_step.
  destruct (solr _ _) as [res|]; simpl; [|done].
  destruct (facet_pairs c res) as [pairs|]; simpl; [|done].
  destruct (adapt_rows (data ++ pairs)); simpl; [|done].
  by intros [= <- _].
Qed.

Lemma batches_pages (SOLR_SERVER : string) (solr : server) (c : column)
    (shards : string) (num : Z) (n : nat) :
  forall k : Z,
    exists m : nat,
      Forall2 (fun k' b => b.1 = upsert_sql c
                           /\ page_pairs SOLR_SERVER solr c shards k' = Ok b.2)
        (seqZ k (Z.of_nat m))
        (batches (flat_map (page_events SOLR_SERVER solr c shards num)
                    (pages_tried SOLR_SERVER solr c shards k n))).
Proof.
  induction n as [|n IH]; intros k; cbn [pages_tried flat_map].
  - exists 0%nat. constructor.
  - destruct (page_rows SOLR_SERVER solr c shards k) as [rows|e] eqn:Hrows.
    + destruct (page_events_done _ _ _ _ num _ _ Hrows) as (pairs & Hpairs & ->).
      destruct (IH (k + 1)) as [m Hm]. exists (S m).
      rewrite seqZ_cons by lia. rewrite batches_app. simpl.
      constructor; [done|].
      by replace (Z.pred (Z.of_nat (S m))) with (Z.of_nat m) by lia.
    + exists 0%nat. cbn [flat_map].
      rewrite app_nil_r, (page_events_raised _ _ _ _ num _ _ Hrows). constructor.
Qed.

Lemma batches_dimension (SOLR_SERVER : string) (solr : server) (c : column)
    (shards : string) :
  exists m : nat,
    Forall2 (fun k b => b.1 = upsert_sql c
                        /\ page_pairs SOLR_SERVER solr c shards k = Ok b.2)
      (seqZ 0 (Z.of_nat m))
      (batches (dimension_events SOLR_SERVER solr c shards)).
Proof.
  unfold dimension_events, dimension_pages, num_pages.
  destruct (solr _ _) as [res|]; [|exists 0%nat; constructor].
  destruct (countDistinct c res) as [total|e].
  - destruct (int_truediv total 100) as [num|e]; [|exists 0%nat; constructor].
    apply batches_pages.
  - exists 0%nat. destruct e; constructor.
Qed.

(** C9: the list of the batch is empty again when a page is done, so in
    every run of a dimension the batches are, in order, the pairs of page 0,
    of page 1 and so on, each batch the pairs of its own page and no others;
    and a batch has at most 100 pairs when no page reply has more than the
    facet.limit of 100 asked for. *)
Theorem c9_batch_is_own_page (SOLR_SERVER : string) (solr : server) (c : column)
    (shards : string) (s : state) :
  let r := index_dimension SOLR_SERVER solr c shards s in
  (forall num k data s0 d s1,
     index_page SOLR_SERVER solr c shards 100 num k data s0 = (Ok d, s1) -> d = [])
  /\ exists (evs : list event) (m : nat),
       output r.2 = output s ++ evs
       /\ Forall2 (fun k b => b.1 = upsert_sql c
                              /\ page_pairs SOLR_SERVER solr c shards k = Ok b.2)
            (seqZ 0 (Z.of_nat m)) (batches evs)
       /\ ((forall k pairs,
              page_pairs SOLR_SERVER solr c shards k = Ok pairs ->
              (length pairs <= 100)%nat) ->
           Forall (fun b => (length b.2 <= 100)%nat) (batches evs)).
Proof.
  intros r. split.
  { intros num k data s0 d s1. apply index_page_clears. }
  destruct (index_dimension_run SOLR_SERVER solr c shards s) as (_ & _ & Ho).
  destruct (batches_dimension SOLR_SERVER solr c shards) as [m Hm].
  exists (dimension_events SOLR_SERVER solr c shards), m.
  split_and!; [done..|].
  intros Hlimit. revert Hm. generalize (seqZ 0 (Z.of_nat m)).
  induction (batches (dimension_events SOLR_SERVER solr c shards)) as [|b bs IH];
    intros ks Hm; [constructor|].
  inversion Hm as [|k b' ks' bs' [_ Hk] Hrest]; subst.
  constructor; [by eapply Hlimit|by eapply IH].
Qed.

(** ** Exceptions and the exit status *)

Ltac raises :=
  unfold mbind, pyres_bind in *; intros;
  repeat case_match; by simplify_eq.

Lemma subscript_raises (x : pyval) (key : string) (e : exn) :
  subscript x key = Raise e -> is_SystemExit e = false.
Proof. unfold subscript. raises. Qed.

Lemma countDistinct_raises (c : column) (res : response) (e : exn) :
  countDistinct c res = Raise e -> is_SystemExit e = false.
Proof.
  unfold countDistinct, json. intros H.
  destruct (body res) as [reply|]; simpl in H; [|by simplify_eq].
  unfold mbind, pyres_bind in H.
  repeat match type of H with
  | match subscript ?x ?k with _ => _ end = _ =>
      let Hs := fresh in
      destruct (subscript x k) eqn:Hs; [|simplify_eq; by eapply subscript_raises]
  end.
  by eapply subscript_raises.
Qed.

Lemma facet_pairs_raises (c : column) (res : response) (e : exn) :
  facet_pairs c res = Raise e -> is_SystemExit e = false.
Proof.
  unfold facet_pairs, json. intros H.
  destruct (body res) as [reply|]; simpl in H; [|by simplify_eq].
  unfold mbind, pyres_bind in H.
  repeat match type of H with
  | match subscript ?x ?k with _ => _ end = _ =>
      let Hs := fresh in
      destruct (subscript x k) eqn:Hs; [|simplify_eq; by eapply subscript_raises]
  end.
  unfold items in H. raises.
Qed.

Lemma adapt_rows_raises (data : params) (e : exn) :
  adapt_rows data = Raise e -> e = DatabaseError.
Proof.
  induction data as [|[i v] data IH]; simpl; [done|].
  unfold mbind, pyres_bind, int4. intros H.
  destruct v; simplify_eq; try done.
  destruct (_ && _); simplify_eq; [|done].
  destruct (adapt_rows data); simplify_eq. by apply IH.
Qed.

Lemma page_rows_raises (SOLR_SERVER : string) (solr : server) (c : column)
    (shards : string) (k : Z) (e : exn) :
  page_rows SOLR_SERVER solr c shards k = Raise e -> is_SystemExit e = false.
Proof.
  unfold page_rows, page_pairs. intros H.
  destruct (solr _ _) as [res|]; simpl in H; [|by simplify_eq].
  destruct (facet_pairs c res) as [pairs|e'] eqn:Hp; simpl in H.
  - by apply adapt_rows_raises in H as ->.
  - simplify_eq. by eapply facet_pairs_raises.
Qed.

Lemma pages_result_raises (SOLR_SERVER : string) (solr : server) (c : column)
    (shards : string) (n : nat) :
  forall (k : Z) (e : exn),
    pages_result SOLR_SERVER solr c shards k n = Raise e -> is_SystemExit e = false.
Proof.
  induction n as [|n IH]; intros k e; simpl; [done|].
  destruct (page_rows SOLR_SERVER solr c shards k) eqn:Hrows; [apply IH|].
  intros [= <-]. by eapply page_rows_raises.
Qed.

Lemma int_truediv_raises (total : pyval) (e : exn) :
  int_truediv total 100 = Raise e -> is_SystemExit e = false.
Proof.
  unfold int_truediv, Float.true_divide, Float.true_divide_pos.
  change (100 =? 0) with false. cbv iota.
  destruct total; unfold mbind, pyres_bind; repeat case_match; intros; by simplify_eq.
Qed.

Lemma match_cores_raises (cores : list pyval) :
  forall (years : list string) (e : exn),
    match_cores cores years = Raise e -> e = TypeError.
Proof.
  induction cores as [|core cores IH]; intros years e; simpl; [done|].
  destruct core; simpl; try by intros [= <-].
  destruct (pattern_match_str s); simpl; apply IH.
Qed.

Lemma statistics_cores_raises (res : response) (e : exn) :
  statistics_cores res = Raise e -> is_SystemExit e = false.
Proof.
  unfold statistics_cores, json. intros H.
  destruct (status_code res =? 200); [|done].
  destruct (body res) as [data|]; simpl in H; [|by simplify_eq].
  unfold mbind, pyres_bind in H.
  destruct (subscript data "status") as [status|e'] eqn:Hs;
    [|simplify_eq; by eapply subscript_raises].
  destruct (iterate status) as [cores|e'] eqn:Hi.
  - by apply match_cores_raises in H as ->.
  - simplify_eq. unfold iterate in Hi. raises.
Qed.

Lemma resolved_shards_raises (SOLR_SERVER : string) (solr : server) (e : exn) :
  resolved_shards SOLR_SERVER solr = Raise e -> is_SystemExit e = false.
Proof.
  unfold resolved_shards. destruct (solr _ _) as [res|]; [|by intros [= <-]].
  destruct (statistics_cores res) eqn:Hc; simpl; [done|].
  intros [= <-]. by eapply statistics_cores_raises.
Qed.

Lemma exit_status_raised (e : exn) :
  is_SystemExit e = false -> exit_status (Raise e) = 1.
Proof. by destruct e. Qed.

(** The early exit of a dimension, and only it, ends in [SystemExit]. *)
Lemma dimension_result_exit (SOLR_SERVER : string) (solr : server) (c : column)
    (shards : string) (code : Z) :
  dimension_result SOLR_SERVER solr c shards = Raise (SystemExit code) <->
  code = 0
  /\ exists res, solr (select_url SOLR_SERVER) (count_query c shards) = Some res
                 /\ countDistinct c res = Raise TypeError.
Proof.
  unfold dimension_result.
  destruct (solr _ _) as [res|]; [|split; [done|by intros (_ & ? & ? & _)]].
  destruct (countDistinct c res) as [total|e] eqn:Hcount.
  - split; [|intros (_ & res' & ? & ?); congruence].
    destruct (int_truediv total 100) as [num|e] eqn:Hdiv; intros H.
    + by apply pages_result_raises in H.
    + simplify_eq. by apply int_truediv_raises in Hdiv.
  - split.
    + intros H. pose proof (countDistinct_raises _ _ _ Hcount).
      destruct e; simplify_eq. eauto.
    + intros (-> & res' & ? & Htype). simplify_eq.
      rewrite Htype in Hcount. by simplify_eq.
Qed.

(** ** Properties of the exits *)

(** C10: a dimension ends in the clean exit, [exit(0)] behind the message,
    exactly when reading [countDistinct] out of the reply raises TypeError,
    as it does when the statistic of the field is null; a reply without the
    stats keys raises KeyError, which nothing catches: no message, and the
    run ends with status 1. *)
Theorem c10_clean_exit_only_on_TypeError (SOLR_SERVER : string) (solr : server) :
  (forall c shards s,
     (index_dimension SOLR_SERVER solr c shards s).1 = Raise (SystemExit 0) <->
     exists res, solr (select_url SOLR_SERVER) (count_query c shards) = Some res
                 /\ countDistinct c res = Raise TypeError)
  /\ (forall c shards s res key,
        solr (select_url SOLR_SERVER) (count_query c shards) = Some res ->
        countDistinct c res = Raise (KeyError key) ->
        let r := index_dimension SOLR_SERVER solr c shards s in
        r.1 = Raise (KeyError key)
        /\ exit_status r.1 = 1
        /\ output r.2 = output s ++ [Get (select_url SOLR_SERVER) (count_query c shards)])
  /\ (forall t,
        (run SOLR_SERVER solr t).1 = Raise (SystemExit 0) ->
        exists c shards res,
          solr (select_url SOLR_SERVER) (count_query c shards) = Some res
          /\ countDistinct c res = Raise TypeError)
  /\ (forall t c shards res key,
        resolved_shards SOLR_SERVER solr = Ok shards ->
        c = Views \/ dimension_result SOLR_SERVER solr Views shards = Ok tt ->
        solr (select_url SOLR_SERVER) (count_query c shards) = Some res ->
        countDistinct c res = Raise (KeyError key) ->
        (run SOLR_SERVER solr t).1 = Raise (KeyError key)
        /\ exit_status (run SOLR_SERVER solr t).1 = 1)
  /\ (forall c,
        countDistinct c (stats_reply c PNone) = Raise TypeError
        /\ countDistinct c (Response 200 (Some (PDict []))) = Raise (KeyError "stats")).
Proof.
  split_and!.
  - intros c shards s.
    destruct (index_dimension_run SOLR_SERVER solr c shards s) as (-> & _).
    rewrite dimension_result_exit. split; [by intros [_ H]|by intros H].
  - intros c shards s res key Hres Hkey r.
    destruct (index_dimension_run SOLR_SERVER solr c shards s) as (Hr & _ & Ho).
    fold r in Hr, Ho. rewrite Hr, Ho.
    unfold dimension_result, dimension_events. by rewrite Hres, Hkey.
  - intros t. destruct (main_run SOLR_SERVER solr t) as (-> & _).
    unfold run_result.
    destruct (resolved_shards SOLR_SERVER solr) as [shards|e] eqn:Hsh; simpl.
    + destruct (dimension_result SOLR_SERVER solr Views shards) as [[]|e] eqn:Hv; simpl.
      * intros Hd. apply dimension_result_exit in Hd as (_ & res & ? & ?).
        by exists Downloads, shards, res.
      * intros [= ->]. apply dimension_result_exit in Hv as (_ & res & ? & ?).
        by exists Views, shards, res.
    + intros [= ->]. by apply resolved_shards_raises in Hsh.
  - intros t c shards res key Hsh Hc Hres Hkey.
    destruct (main_run SOLR_SERVER solr t) as (-> & _).
    assert (dimension_result SOLR_SERVER solr c shards = Raise (KeyError key)) as Hk.
    { unfold dimension_result. by rewrite Hres, Hkey. }
    unfold run_result. rewrite Hsh. simpl.
    destruct Hc as [->|Hv]; [by rewrite Hk|]. rewrite Hv. simpl.
    destruct c; [congruence|]. by rewrite Hk.
  - intros []; split; reflexivity.
Qed.

(** C1, as it stands, fails: against a server with no usable count of views
    and one item with downloads, the run ends with status 0 behind the
    message of the views, and the downloads are never asked for, let alone
    stored. *)
Lemma c1_counterexample :
  no_views_server (select_url demo_url) (count_query Views "")
  = Some (stats_reply Views PNone)
  /\ countDistinct Views (stats_reply Views PNone) = Raise TypeError
  /\ replies_in_order demo_url no_views_server Downloads "" 1
  /\ exit_status (run demo_url no_views_server ∅).1 = 0
  /\ requests (output (run demo_url no_views_server ∅).2)
     = [ (status_url demo_url, status_query);
         (select_url demo_url, count_query Views "") ]
  /\ stored (run demo_url no_views_server ∅).2 = ∅.
Proof.
  split_and!; try (vm_compute; reflexivity).
  split; [|split].
  - eexists. split; vm_compute; reflexivity.
  - split; [lia|reflexivity].
  - intros k _. eexists. vm_compute. reflexivity.
Qed.

(** C1, amended: when reading the distinct count of the views raises
    TypeError, the script prints its message and the process ends there with
    status 0; the downloads are not run and the table stays as it was. *)
Theorem c1_views_empty_ends_run (SOLR_SERVER : string) (solr : server) (t : table)
    (shards : string) (res : response) :
  resolved_shards SOLR_SERVER solr = Ok shards ->
  solr (select_url SOLR_SERVER) (count_query Views shards) = Some res ->
  countDistinct Views res = Raise TypeError ->
  let r := run SOLR_SERVER solr t in
  r.1 = Raise (SystemExit 0)
  /\ exit_status r.1 = 0
  /\ output r.2
     = setup_events SOLR_SERVER
       ++ [ Get (select_url SOLR_SERVER) (count_query Views shards);
            Print "No item views to index, exiting." ]
  /\ stored r.2 = t.
Proof.
  intros Hsh Hres Hcount r.
  destruct (main_run SOLR_SERVER solr t) as (Hr & Ht & Ho). fold r in Hr, Ht, Ho.
  assert (dimension_result SOLR_SERVER solr Views shards = Raise (SystemExit 0)) as Hv.
  { apply dimension_result_exit. eauto. }
  rewrite Hr, Ht, Ho. unfold run_result, run_events, run_table. rewrite Hsh. simpl.
  rewrite Hv. simpl. split_and!; [done..| |].
  - unfold dimension_events. by rewrite Hres, Hcount, app_nil_r.
  - unfold dimension_table, dimension_pages, num_pages. by rewrite Hres, Hcount.
Qed.

Lemma c1_views_empty_ends_run_witness :
  resolved_shards demo_url no_views_server = Ok ""
  /\ exit_status (run demo_url no_views_server {[ "A" := Row 4 1 ]}).1 = 0
  /\ stored (run demo_url no_views_server {[ "A" := Row 4 1 ]}).2 = {[ "A" := Row 4 1 ]}.
Proof.
  split; [vm_compute; reflexivity|].
  destruct (c1_views_empty_ends_run demo_url no_views_server {[ "A" := Row 4 1 ]} ""
              (stats_reply Views PNone))
    as (_ & Hstatus & _ & Hstored); [vm_compute; reflexivity..|].
  split; [exact Hstatus|exact Hstored].
Defined.




(** ** Properties of the shard set *)





(** * Further properties of the script *)

(** ** The pattern and the page count *)


(** X2: for a count of n distinct values, 0 <= n < 100 * 2^47, the division
    by the page size and the cast to int give the floor of n / 100, so that
    the last page, page [int(n / 100)], starts at or before item n and less
    than a page before it. *)
Theorem x2_page_count_rounds_down (n : Z) :
  0 <= n < 100 * 2 ^ 47 ->
  exists num, int_truediv (PInt n) 100 = Ok num
              /\ num = n / 100
              /\ num * 100 <= n < num * 100 + 100.
Proof.
  intros Hn. exists (n / 100). split; [by apply int_truediv_floor|].
  split; [done|].
  pose proof (Z.div_mod n 100 ltac:(lia)). pose proof (Z.mod_pos_bound n 100 ltac:(lia)).
  lia.
Qed.

Lemma x2_page_count_rounds_down_witness :
  exists num, int_truediv (PInt 299) 100 = Ok num /\ num = 299 / 100
              /\ num * 100 <= 299 < num * 100 + 100.
Proof. apply (x2_page_count_rounds_down 299). split; [lia|reflexivity]. Defined.

(** ** The resolver *)

Lemma string_app_empty (s1 s2 : string) : s1 +:+ s2 = EmptyString -> s2 = EmptyString.
Proof. destruct s1; [done|]. intros H. discriminate H. Qed.

Lemma concat_comma_empty (x : string) (rest : list string) :
  String.concat "," (x :: rest) = EmptyString -> x = EmptyString.
Proof.
  destruct rest as [|y rest]; simpl; [done|].
  destruct x; [done|]. intros H. discriminate H.
Qed.

(** X3: on a status reply that lists the cores, [get_statistics_shards]
    returns the empty string exactly when no core name matches the pattern;
    with a match the string begins with the base core, whatever
    SOLR_SERVER is. *)
Theorem x3_shards_empty_iff_no_match (SOLR_SERVER : string) (solr : server)
    (res : response) (data : pyval) (cores : params) (s : state) :
  solr (status_url SOLR_SERVER) status_query = Some res ->
  status_code res = 200 ->
  body res = Some data ->
  subscript data "status" = Ok (PDict cores) ->
  ((get_statistics_shards SOLR_SERVER solr s).1 = Ok EmptyString <->
   List.filter pattern_match_str (map fst cores) = [])
  /\ (List.filter pattern_match_str (map fst cores) <> [] ->
      exists rest,
        (get_statistics_shards SOLR_SERVER solr s).1
        = Ok ((SOLR_SERVER +:+ "/statistics") +:+ "," +:+ rest)).
Proof.
  intros Hres Hcode Hbody Hstatus.
  rewrite get_statistics_shards_run. simpl.
  rewrite (resolved_shards_names _ _ _ _ _ Hres Hcode Hbody Hstatus).
  unfold shards_parameter, shard_targets.
  destruct (List.filter pattern_match_str (map fst cores)) as [|year years].
  - split; [done|]. by intros [].
  - split.
    + split; [|done]. intros H.
      assert (String.concat ","
                ((SOLR_SERVER +:+ "/statistics")
                 :: map (fun name => SOLR_SERVER +:+ "/" +:+ name) (year :: years))
              = EmptyString) as Hc by congruence.
      apply concat_comma_empty in Hc. by apply string_app_empty in Hc.
    + intros _. eexists. reflexivity.
Qed.

Lemma x3_shards_empty_iff_no_match_witness :
  sharded_server (status_url demo_url) status_query
  = Some (cores_reply 200 ["statistics"; "statistics-2018"; "search"; "statistics-2019";
                           "statistics-19"; "oai"])
  /\ (get_statistics_shards demo_url sharded_server (State ∅ ∅ [])).1 <> Ok EmptyString.
Proof.
  split; [reflexivity|].
  pose proof (x3_shards_empty_iff_no_match demo_url sharded_server
                (cores_reply 200 ["statistics"; "statistics-2018"; "search";
                                  "statistics-2019"; "statistics-19"; "oai"])
                (PDict [("status",
                         PDict (map (fun n => (n, PDict []))
                                  ["statistics"; "statistics-2018"; "search";
                                   "statistics-2019"; "statistics-19"; "oai"]))])
                (map (fun n => (n, PDict []))
                   ["statistics"; "statistics-2018"; "search"; "statistics-2019";
                    "statistics-19"; "oai"])
                (State ∅ ∅ []) eq_refl eq_refl eq_refl eq_refl) as [Hiff _].
  intros Hempty. apply Hiff in Hempty. vm_compute in Hempty. discriminate Hempty.
Defined.

(** X4: a request that gets no answer is fatal, there is no retry.  When it
    is the status request, the run ends with status 1 having created the
    table and asked once, with nothing stored; when it is the count request
    of a dimension, the dimension raises after that one request, no page is
    asked for and the table stays as it was. *)
Theorem x4_no_answer_is_fatal (SOLR_SERVER : string) (solr : server) :
  (solr (status_url SOLR_SERVER) status_query = None ->
   forall t,
     let r := run SOLR_SERVER solr t in
     r.1 = Raise ConnectionError
     /\ exit_status r.1 = 1
     /\ output r.2 = setup_events SOLR_SERVER
     /\ stored r.2 = t)
  /\ (forall c shards s,
        solr (select_url SOLR_SERVER) (count_query c shards) = None ->
        let r := index_dimension SOLR_SERVER solr c shards s in
        r.1 = Raise ConnectionError
        /\ output r.2 = output s ++ [Get (select_url SOLR_SERVER) (count_query c shards)]
        /\ stored r.2 = stored s).
Proof.
  split.
  - intros Hnone t r.
    destruct (main_run SOLR_SERVER solr t) as (Hr & Ht & Ho). fold r in Hr, Ht, Ho.
    rewrite Hr, Ht, Ho. unfold run_result, run_table, run_events, resolved_shards.
    rewrite Hnone. by rewrite app_nil_r.
  - intros c shards s Hnone r.
    destruct (index_dimension_run SOLR_SERVER solr c shards s) as (Hr & Ht & Ho).
    fold r in Hr, Ht, Ho. rewrite Hr, Ht, Ho.
    unfold dimension_result, dimension_table, dimension_events, dimension_pages, num_pages.
    by rewrite Hnone.
Qed.

Lemma x4_no_answer_is_fatal_witness :
  silent_server (status_url demo_url) status_query = None
  /\ exit_status (run demo_url silent_server {[ "A" := Row 1 1 ]}).1 = 1
  /\ stored (run demo_url silent_server {[ "A" := Row 1 1 ]}).2 = {[ "A" := Row 1 1 ]}.
Proof.
  split; [reflexivity|].
  destruct (proj1 (x4_no_answer_is_fatal demo_url silent_server) eq_refl
              {[ "A" := Row 1 1 ]}) as (_ & Hstatus & _ & Hstored).
  split; [exact Hstatus|exact Hstored].
Defined.

(** ** The count *)

(** X5: a reply that holds [countDistinct] with a value that is no number,
    null for one, is past the [try] when it fails: the division raises
    TypeError, nothing catches it and no message is printed; the dimension
    asks for no page and leaves the table as it was, and the status of the
    process is 1, not 0. *)
Theorem x5_count_not_a_number (SOLR_SERVER : string) (solr : server) (c : column)
    (shards : string) (s : state) (res : response) (total : pyval) :
  solr (select_url SOLR_SERVER) (count_query c shards) = Some res ->
  countDistinct c res = Ok total ->
  match total with PInt _ | PBool _ => False | _ => True end ->
  let r := index_dimension SOLR_SERVER solr c shards s in
  r.1 = Raise TypeError
  /\ exit_status r.1 = 1
  /\ output r.2 = output s ++ [Get (select_url SOLR_SERVER) (count_query c shards)]
  /\ stored r.2 = stored s.
Proof.
  intros Hres Hcount Htotal r.
  destruct (index_dimension_run SOLR_SERVER solr c shards s) as (Hr & Ht & Ho).
  fold r in Hr, Ht, Ho. rewrite Hr, Ht, Ho.
  unfold dimension_result, dimension_table, dimension_events, dimension_pages, num_pages.
  rewrite Hres, Hcount. by destruct total.
Qed.

Lemma x5_count_not_a_number_witness :
  countDistinct Views (stats_reply Views (PDict [("countDistinct", PNone)])) = Ok PNone
  /\ exit_status (index_dimension demo_url null_count_server Views "" (State ∅ ∅ [])).1 = 1.
Proof.
  split; [reflexivity|].
  destruct (x5_count_not_a_number demo_url null_count_server Views "" (State ∅ ∅ [])
              (stats_reply Views (PDict [("countDistinct", PNone)])) PNone)
    as (_ & Hstatus & _); [reflexivity|reflexivity|exact I|].
  exact Hstatus.
Defined.

(** ** Pages that fail *)






(** ** What an upsert stores *)








(** X9: no run removes a row: an id stored before the run is stored after
    it, whatever the server sends and however the run ends. *)
Theorem x9_rows_are_never_removed (SOLR_SERVER : string) (solr : server) (t : table)
    (i : string) :
  is_Some (t !! i) -> is_Some (stored (run SOLR_SERVER solr t).2 !! i).
Proof.
  intros [r Hr].
  destruct (main_run SOLR_SERVER solr t) as (_ & -> & _). unfold run_table.
  destruct (resolved_shards SOLR_SERVER solr) as [shards|]; [|by exists r].
  destruct (dimension_table_other SOLR_SERVER solr Views shards t i r Hr) as (r1 & H1 & _).
  destruct (dimension_result SOLR_SERVER solr Views shards); [|by exists r1].
  destruct (dimension_table_other SOLR_SERVER solr Downloads shards _ i r1 H1)
    as (r2 & H2 & _).
  by exists r2.
Qed.

Lemma x9_rows_are_never_removed_witness :
  is_Some (stored (run demo_url merge_server {[ "A" := Row 1 1 ]}).2 !! "A").
Proof.
  apply (x9_rows_are_never_removed demo_url merge_server {[ "A" := Row 1 1 ]} "A").
  by exists (Row 1 1).
Defined.





(** ** How pages compose *)

Lemma upsert_row_commute (t : table) (a b : string * Z) :
  upsert_row Views (upsert_row Downloads t a) b
  = upsert_row Downloads (upsert_row Views t b) a.
Proof.
  apply map_eq. intros i. rewrite !upsert_row_lookup.
  repeat case_decide; try done; by destruct (t !! i) as [[? ?]|].
Qed.

Lemma upsert_row_foldl_commute (rd : list (string * Z)) :
  forall (t : table) (b : string * Z),
    upsert_row Views (foldl (upsert_row Downloads) t rd) b
    = foldl (upsert_row Downloads) (upsert_row Views t b) rd.
Proof.
  induction rd as [|a rd IH]; intros t b; simpl; [done|].
  by rewrite IH, upsert_row_commute.
Qed.

Lemma foldl_upsert_commute (rv rd : list (string * Z)) :
  forall t : table,
    foldl (upsert_row Downloads) (foldl (upsert_row Views) t rv) rd
    = foldl (upsert_row Views) (foldl (upsert_row Downloads) t rd) rv.
Proof.
  induction rv as [|b rv IH]; intros t; simpl; [done|].
  by rewrite IH, upsert_row_foldl_commute.
Qed.

(** X12: a page of views and a page of downloads commute: committed in
    either order they leave the same table, since each writes its own
    column. *)
Theorem x12_views_and_downloads_commute (dv dd : params) (rv rd : list (string * Z))
    (s : state) :
  session s = stored s ->
  adapt_rows dv = Ok rv ->
  adapt_rows dd = Ok rd ->
  stored ((execute_values Views dv;; commit;; execute_values Downloads dd;; commit) s).2
  = stored ((execute_values Downloads dd;; commit;; execute_values Views dv;; commit) s).2.
Proof.
  intros Hs Hv Hd. unfold mbind, Py_bind, execute_values, commit.
  rewrite Hv, Hd. simpl. apply foldl_upsert_commute.
Qed.

Lemma x12_views_and_downloads_commute_witness :
  stored ((execute_values Views [("A", PInt 5); ("B", PInt 3)];; commit;;
           execute_values Downloads [("A", PInt 2)];; commit) (State ∅ ∅ [])).2
  = stored ((execute_values Downloads [("A", PInt 2)];; commit;;
             execute_values Views [("A", PInt 5); ("B", PInt 3)];; commit)
              (State ∅ ∅ [])).2.
Proof.
  apply (x12_views_and_downloads_commute [("A", PInt 5); ("B", PInt 3)] [("A", PInt 2)]
           [("A", 5); ("B", 3)] [("A", 2)]); reflexivity.
Defined.

(** X13: a page delivered twice stores what it stores once: committing the
    same batch of the same dimension a second time changes no row. *)
Theorem x13_page_twice_is_once (c : column) (data : params) (s : state) :
  let once := ((execute_values c data;; commit) s).2 in
  stored ((execute_values c data;; commit) once).2 = stored once.
Proof.
  intros once. subst once. rewrite !bind_run. unfold execute_values, commit.
  destruct (adapt_rows data) as [rows|e] eqn:Hrows; simpl.
  - apply (columnwise_idem (fun t => foldl (upsert_row c) t rows)).
    apply columnwise_foldl. intros iv. apply columnwise_upsert_row.
  - done.
Qed.

(** ** The requests and the exit status *)

Lemma requests_dimension_events (SOLR_SERVER : string) (solr : server) (c : column)
    (shards : string) :
  Forall (fun r => r.1 = select_url SOLR_SERVER
                   /\ dict_get r.2 "shards" = Some (PStr shards)
                   /\ dict_get r.2 "q" = Some (PStr (q c)))
    (requests (dimension_events SOLR_SERVER solr c shards)).
Proof.
  unfold dimension_events. cbn [requests].
  apply Forall_cons. split; [done|].
  destruct (solr _ _) as [res|]; [|constructor].
  destruct (countDistinct c res) as [total|e].
  - destruct (int_truediv total 100) as [num|]; [|constructor].
    rewrite requests_page_events. apply Forall_fmap, Forall_true. by intros k.
  - destruct e; repeat constructor.
Qed.

(** X14: a run asks for the status of the cores once, as its first request,
    and sends every other request to the select handler of the base core;
    each of them carries the shards parameter that the resolver returned,
    the same for views and downloads. *)
Theorem x14_requests_of_a_run (SOLR_SERVER : string) (solr : server) (t : table) :
  exists rest,
    requests (output (run SOLR_SERVER solr t).2)
    = (status_url SOLR_SERVER, status_query) :: rest
    /\ Forall (fun r => r.1 = select_url SOLR_SERVER) rest
    /\ (forall s0 shards,
          (get_statistics_shards SOLR_SERVER solr s0).1 = Ok shards ->
          Forall (fun r => dict_get r.2 "shards" = Some (PStr shards)) rest).
Proof.
  destruct (main_run SOLR_SERVER solr t) as (_ & _ & ->).
  unfold run_events, setup_events. cbn [requests app].
  eexists. split; [reflexivity|].
  destruct (resolved_shards SOLR_SERVER solr) as [shards|e] eqn:Hsh.
  - pose proof (requests_dimension_events SOLR_SERVER solr Views shards) as Hv.
    pose proof (requests_dimension_events SOLR_SERVER solr Downloads shards) as Hd.
    assert (Forall (fun r => r.1 = select_url SOLR_SERVER
                             /\ dict_get r.2 "shards" = Some (PStr shards))
              (requests (dimension_events SOLR_SERVER solr Views shards
                         ++ match dimension_result SOLR_SERVER solr Views shards with
                            | Ok _ => dimension_events SOLR_SERVER solr Downloads shards
                            | Raise _ => []
                            end))) as Hall.
    { rewrite requests_app. apply Forall_app. split.
      - eapply Forall_impl; [exact Hv|]. by intros r (? & ? & _).
      - destruct (dimension_result SOLR_SERVER solr Views shards); [|constructor].
        eapply Forall_impl; [exact Hd|]. by intros r (? & ? & _). }
    split.
    + eapply Forall_impl; [exact Hall|]. by intros r [? _].
    + intros s0 shards'. rewrite get_statistics_shards_run. simpl.
      intros Heq. assert (shards' = shards) as -> by congruence.
      eapply Forall_impl; [exact Hall|]. by intros r [_ ?].
  - split; [constructor|]. intros s0 shards'.
    rewrite get_statistics_shards_run. simpl. by rewrite Hsh.
Qed.

Lemma run_result_raises (SOLR_SERVER : string) (solr : server) (e : exn) :
  run_result SOLR_SERVER solr = Raise e -> e = SystemExit 0 \/ is_SystemExit e = false.
Proof.
  assert (forall c shards,
            dimension_result SOLR_SERVER solr c shards = Raise e ->
            e = SystemExit 0 \/ is_SystemExit e = false) as Hdim.
  { intros c shards H. destruct e; auto.
    apply dimension_result_exit in H as [-> _]. by left. }
  unfold run_result.
  destruct (resolved_shards SOLR_SERVER solr) as [shards|e'] eqn:Hsh; simpl.
  - destruct (dimension_result SOLR_SERVER solr Views shards) as [[]|e'] eqn:Hv; simpl.
    + apply Hdim.
    + intros [= ->]. by eapply Hdim.
  - intros [= ->]. right. by eapply resolved_shards_raises.
Qed.

(** X15: the exit status of a run is 0 or 1, whatever the server sends: 0
    when the module runs to its end or a dimension takes its early exit, 1
    when any exception gets out. *)
Theorem x15_exit_status_is_0_or_1 (SOLR_SERVER : string) (solr : server) (t : table) :
  let r := (run SOLR_SERVER solr t).1 in
  (exit_status r = 0 \/ exit_status r = 1)
  /\ (exit_status r = 0 <-> r = Ok tt \/ r = Raise (SystemExit 0)).
Proof.
  intros r. subst r. destruct (main_run SOLR_SERVER solr t) as (-> & _).
  destruct (run_result SOLR_SERVER solr) as [[]|e] eqn:Hr.
  - split; [by left|]. split; [by left|done].
  - destruct (run_result_raises _ _ _ Hr) as [->|He].
    + split; [by left|]. split; [by right|done].
    + rewrite (exit_status_raised e He). split; [by right|].
      split; [done|]. intros [H|[= ->]]; done.
Qed.

(** ** A run that goes through *)



